(** * pjsekai-overlay, package pjsekaioverlay (chart.go)

    A shallow embedding of [pkg/pjsekaioverlay/chart.go]: chart-source
    detection, metadata and level-data retrieval, and the two asset
    downloads (cover and background).

    Go values are modelled as follows.
    - A Go function returning [(T, error)] returns a pair [T * option Error];
      [None] is the nil error.
    - The errors of chart.go are the constructors of [Error], one per
      message template of the source; the bracketed detail text
      ([%s] of an underlying error) is not kept.
    - The network and the local file system are an explicit [World] that
      the operations thread through; [net] is the remote hosts' answer to
      a GET of a URL ([None]: the transport failed).
    - The standard-library decoders and encoders (JSON, gzip, image,
      PNG, the bilinear scaler of x/image/draw) are section variables:
      chart.go only composes them. *)

From Stdlib Require Import String Ascii List ZArith Bool Arith Lia.
Import ListNotations.
Open Scope string_scope.

(** ** Errors *)

(** One constructor per [errors.New] / [fmt.Errorf] of chart.go. *)
Inductive Error :=
| ErrConnect                (* FetchChart: "Could not connect to server." *)
| ErrChartNotFound          (* FetchChart: "Unable to search chart." *)
| ErrUnknownSource          (* DetectChartSource: "unknown chart source" *)
| ErrUrlParse               (* "URL parsing failed. [%s]" *)
| ErrConnectDetail          (* "Could not connect to server. [%s]" *)
| ErrConnectParen           (* DownloadCover: "サーバーに接続できませんでした。（%s）" *)
| ErrConnectStatus (status : Z) (* DownloadCover: "Could not connect to server. [%d]" *)
| ErrChartDataNotFound (status : Z) (* "No chart data found. [%d]" *)
| ErrLoadChartData          (* "Loading chart data failed. [%s]" *)
| ErrLoadJacket             (* "Loading jacket failed. [%s]" *)
| ErrCreateFile             (* "Failed to create file. [%s]" *)
| ErrWriteFile              (* "Failed to write file. [%s]" *)
| ErrBackgroundNotFound (status : Z). (* "Background not found. [%d]" *)

(** The error kinds of the spec's taxonomy, assigned by the wording of
    each message. *)
Inductive ErrorKind :=
| UnknownSource | Connectivity | NotFound | UrlResolution | Decode | FileIO.

Definition error_kind (e : Error) : ErrorKind :=
  match e with
  | ErrUnknownSource => UnknownSource
  | ErrConnect | ErrConnectDetail | ErrConnectParen | ErrConnectStatus _ =>
      Connectivity
  | ErrChartNotFound | ErrChartDataNotFound _ | ErrBackgroundNotFound _ =>
      NotFound
  | ErrUrlParse => UrlResolution
  | ErrLoadChartData | ErrLoadJacket => Decode
  | ErrCreateFile | ErrWriteFile => FileIO
  end.

(** ** Sources *)

Record Source := mkSource {
  Id : string;
  Name : string;
  Color : Z;
  Host : string
}.

(** The zero value [Source{}]. *)
Definition Source_zero : Source := mkSource "" "" 0 "".

(** [strings.HasPrefix(s, prefix)]. *)
Definition strings_HasPrefix (s pre : string) : bool := String.prefix pre s.

Definition DetectChartSource (chartId : string) : Source * option Error :=
  let source :=
    if strings_HasPrefix chartId "ptlv-" then
      mkSource "potato_leaves" "Potato Leaves" 0x88cb7f "ptlv.sevenc7c.com"
    else if strings_HasPrefix chartId "chcy-" then
      mkSource "chart_cyanvas" "Chart Cyanvas" 0x83ccd2 "cc.sevenc7c.com"
    else Source_zero in
  if String.eqb source.(Id) "" then
    (mkSource chartId "" 0 "", Some ErrUnknownSource)
  else (source, None).

(** The registered prefixes of [DetectChartSource], in declaration order,
    with the [Id] and [Host] of their entry. *)
Definition registered_sources : list (string * string * string) :=
  [("ptlv-", "potato_leaves", "ptlv.sevenc7c.com");
   ("chcy-", "chart_cyanvas", "cc.sevenc7c.com")].

(** ** Metadata records of package sonolus *)

(** Modelled from the spec: the records [sonolus.LevelInfo],
    [sonolus.InfoResponse] and their nested URL fields, declared in
    pkg/sonolus (not part of chart.go). Only the fields chart.go reads are
    kept: the level data URL, the cover URL and the background image URL
    nested in the background reference. *)
Record SRL := mkSRL { Url : string }.

Record BackgroundItem := mkBackgroundItem { Image : SRL }.

Record UseItem := mkUseItem { UseDefault : bool; Item : BackgroundItem }.

Record LevelInfo := mkLevelInfo {
  Data : SRL;
  Cover : SRL;
  UseBackground : UseItem
}.

Definition LevelInfo_zero : LevelInfo :=
  mkLevelInfo (mkSRL "") (mkSRL "") (mkUseItem false (mkBackgroundItem (mkSRL ""))).

Module InfoResponse.

(** [sonolus.InfoResponse[LevelInfo]]: the envelope of the metadata
    endpoint. *)
Record t := mk { Item : LevelInfo; Description : string }.

End InfoResponse.

(** ** URL joining *)

Definition is_hex (c : ascii) : bool :=
  let n := nat_of_ascii c in
  (((48 <=? n) && (n <=? 57)) || ((65 <=? n) && (n <=? 70))
  || ((97 <=? n) && (n <=? 102)))%nat.

Definition is_ctl (c : ascii) : bool :=
  let n := nat_of_ascii c in ((n <? 32) || (n =? 127))%nat.

(** A URL that does not parse: a control character or a [%] not followed
    by two hexadecimal digits. *)
Fixpoint url_malformed (s : string) : bool :=
  match s with
  | EmptyString => false
  | String c rest =>
      if is_ctl c then true
      else if Ascii.eqb c "%"%char then
        match rest with
        | String a (String b rest') =>
            if is_hex a && is_hex b then url_malformed rest' else true
        | _ => true
        end
      else url_malformed rest
  end.

Definition has_http_scheme (url : string) : bool :=
  String.prefix "https://" url || String.prefix "http://" url.

(** Modelled from the spec: [sonolus.JoinUrl(base, rel)] of pkg/sonolus
    (not part of chart.go). "Standard URL-join semantics (relative
    reference resolution against a base; a malformed relative URL fails
    with a URL-parsing error)". An absolute reference replaces the base, a
    path starting with [/] replaces the base's (empty) path, any other
    reference is appended after [/]; on failure the URL is [""] with the
    error, as Go functions return. *)
Definition JoinUrl (base rel : string) : string * option string :=
  if url_malformed base || url_malformed rel then ("", Some "invalid URL")
  else if has_http_scheme rel then (rel, None)
  else if String.prefix "/" rel then (base ++ rel, None)
  else (base ++ "/" ++ rel, None).

(** ** The world: network log and file system *)

Record Response := mkResponse { StatusCode : Z; Body : list Byte.byte }.

(** A file path, as its list of components; [path.Join(dir, name)] is
    [dir ++ [name]] and the directory of a path is its [removelast]. *)
Definition Path := list string.

Definition path_Join (dir : Path) (name : string) : Path := (dir ++ [name])%list.

Definition path_eqb (p q : Path) : bool :=
  if list_eq_dec string_dec p q then true else false.

(** The file system: its directories, its regular files with their
    contents, and the bytes left on the device; [requests] logs every
    request sent over the network. *)
Record World := mkWorld {
  fs_dirs : list Path;
  fs_files : list (Path * list Byte.byte);
  fs_space : nat;
  requests : list string
}.

Definition dir_exists (d : Path) (w : World) : bool :=
  match d with
  | [] => true
  | _ => existsb (path_eqb d) w.(fs_dirs)
  end.

Definition lookup_file (p : Path) (w : World) : option (list Byte.byte) :=
  match find (fun e => path_eqb (fst e) p) w.(fs_files) with
  | Some (_, c) => Some c
  | None => None
  end.

Definition set_file (p : Path) (c : list Byte.byte) (w : World) : World :=
  mkWorld w.(fs_dirs)
    ((p, c) :: filter (fun e => negb (path_eqb (fst e) p)) w.(fs_files))
    w.(fs_space) w.(requests).

Definition set_space (n : nat) (w : World) : World :=
  mkWorld w.(fs_dirs) w.(fs_files) n w.(requests).

(** [http.Get(url)]: a URL that does not parse, or has no http(s) scheme
    ("unsupported protocol scheme"), fails in the client before any
    request; otherwise the request is sent and logged, and [net] answers
    it. *)
Definition http_Get (net : string -> option Response) (url : string) (w : World)
  : option Response * World :=
  if has_http_scheme url && negb (url_malformed url) then
    (net url, mkWorld w.(fs_dirs) w.(fs_files) w.(fs_space) (url :: w.(requests)))
  else (None, w).

(** Whether [p] or one of its ancestors is an existing regular file. *)
Definition mkdir_blocked (p : Path) (w : World) : bool :=
  existsb (fun n => match lookup_file (firstn n p) w with Some _ => true | None => false end)
    (seq 1 (length p)).

(** [os.MkdirAll(p, 0755)]: fails with "not a directory", creating
    nothing, when [p] or one of its ancestors is a regular file; otherwise
    every ancestor of [p] and [p] itself become directories. *)
Definition os_MkdirAll (p : Path) (w : World) : World * option string :=
  if mkdir_blocked p w then (w, Some "not a directory")
  else (mkWorld (map (fun n => firstn n p) (seq 1 (length p)) ++ w.(fs_dirs))%list
          w.(fs_files) w.(fs_space) w.(requests), None).

(** [os.Create(p)]: creates or truncates [p]; fails when the directory of
    [p] does not exist. *)
Definition os_Create (p : Path) (w : World) : World * option string :=
  if dir_exists (removelast p) w then (set_file p [] w, None)
  else (w, Some "no such file or directory").

(** Writing [b] at the end of file [p]: when the device has fewer than
    [length b] bytes left, the bytes that fit are written and the write
    fails. *)
Definition file_Write (p : Path) (b : list Byte.byte) (w : World)
  : World * option string :=
  let cur := match lookup_file p w with Some c => c | None => [] end in
  let n := w.(fs_space) in
  if (length b <=? n)%nat then (set_space (n - length b) (set_file p (cur ++ b)%list w), None)
  else (set_space 0 (set_file p (cur ++ firstn n b)%list w), Some "no space left on device").

(** [io.Copy(file, body)]: the whole body is written to the file. *)
Definition io_Copy (p : Path) (body : list Byte.byte) (w : World)
  : World * option string :=
  file_Write p body w.

(** ** Images *)

Record Point := mkPoint { X : Z; Y : Z }.
Record Rectangle := mkRectangle { Min : Point; Max : Point }.

(** [image.Rect(x0, y0, x1, y1)], which swaps reversed coordinates. *)
Definition image_Rect (x0 y0 x1 y1 : Z) : Rectangle :=
  mkRectangle (mkPoint (Z.min x0 x1) (Z.min y0 y1))
              (mkPoint (Z.max x0 x1) (Z.max y0 y1)).

Definition Dx (r : Rectangle) : Z := r.(Max).(X) - r.(Min).(X).
Definition Dy (r : Rectangle) : Z := r.(Max).(Y) - r.(Min).(Y).

Definition In_rect (x y : Z) (r : Rectangle) : bool :=
  (r.(Min).(X) <=? x)%Z && (x <? r.(Max).(X))%Z
  && (r.(Min).(Y) <=? y)%Z && (y <? r.(Max).(Y))%Z.

Record RGBA := mkRGBA { R : Z; G : Z; B : Z; A : Z }.

(** An [image.Image]: its bounds and its colour at each point. *)
Record GoImage := mkGoImage { Bounds : Rectangle; At : Z -> Z -> RGBA }.

(** [image.NewRGBA(r)]: every pixel transparent black. *)
Definition image_NewRGBA (r : Rectangle) : GoImage :=
  mkGoImage r (fun _ _ => mkRGBA 0 0 0 0).

Inductive Op := Over | Src.

(** A [draw.Scaler]: the colours it computes for the destination pixels. *)
Definition Scaler := GoImage -> Rectangle -> GoImage -> Rectangle -> Op -> Z -> Z -> RGBA.

(** [s.Scale(dst, dr, src, sr, op, nil)]: only the pixels of [dst] inside
    [dr] (and [dst]'s bounds) change; the bounds of [dst] do not. *)
Definition draw_Scale (s : Scaler) (dst : GoImage) (dr : Rectangle)
  (src : GoImage) (sr : Rectangle) (op : Op) : GoImage :=
  mkGoImage dst.(Bounds)
    (fun x y => if In_rect x y dr && In_rect x y dst.(Bounds)
                then s dst dr src sr op x y else dst.(At) x y).

(** ** The operations of chart.go *)

Section Pipeline.

(** The remote hosts: the response to a GET of each URL, [None] when the
    transport fails. *)
Variable net : string -> option Response.

(** [sonolus.LevelData], opaque to chart.go, and its zero value. *)
Variable LevelData : Type.
Variable LevelData_zero : LevelData.

(** [json.NewDecoder(r).Decode(&chart)] into a zero [InfoResponse]: the
    (possibly partially) decoded value and the decode error. *)
Variable json_Decode_info : list Byte.byte -> InfoResponse.t * option string.

(** [gzip.NewReader(body)]: the decompressed stream, or the error of
    opening it. *)
Variable gzip_NewReader : list Byte.byte -> option (list Byte.byte).

(** [json.NewDecoder(r).Decode(&data)] for [LevelData]; [None] is the
    decode error. *)
Variable json_Decode_level : list Byte.byte -> option LevelData.

(** [image.Decode(body)] with the JPEG and PNG decoders registered. *)
Variable image_Decode : list Byte.byte -> option GoImage.

(** [draw.ApproxBiLinear]. *)
Variable ApproxBiLinear : Scaler.

(** The bytes [png.Encode] produces for an image. *)
Variable png_Encode : GoImage -> list Byte.byte.

Definition FetchChart (source : Source) (chartId : string) (w : World)
  : (LevelInfo * option Error) * World :=
  let url := "https://" ++ source.(Host) ++ "/sonolus/levels/" ++ chartId in
  let (resp, w) := http_Get net url w in
  match resp with
  | None => ((LevelInfo_zero, Some ErrConnect), w)
  | Some resp =>
      if negb (resp.(StatusCode) =? 200)%Z then
        ((LevelInfo_zero, Some ErrChartNotFound), w)
      else
        (* the decode error is dropped *)
        let chart := fst (json_Decode_info resp.(Body)) in
        ((InfoResponse.Item chart, None), w)
  end.

Definition FetchLevelData (source : Source) (level : LevelInfo) (w : World)
  : (LevelData * option Error) * World :=
  let (url, err) := JoinUrl ("https://" ++ source.(Host)) level.(Data).(Url) in
  match err with
  | Some _ => ((LevelData_zero, Some ErrUrlParse), w)
  | None =>
      let (resp, w) := http_Get net url w in
      match resp with
      | None => ((LevelData_zero, Some ErrConnectDetail), w)
      | Some resp =>
          if negb (resp.(StatusCode) =? 200)%Z then
            ((LevelData_zero, Some (ErrChartDataNotFound resp.(StatusCode))), w)
          else
            match gzip_NewReader resp.(Body) with
            | None => ((LevelData_zero, Some ErrLoadChartData), w)
            | Some gzipReader =>
                match json_Decode_level gzipReader with
                | None => ((LevelData_zero, Some ErrLoadChartData), w)
                | Some data => ((data, None), w)
                end
            end
      end
  end.

Definition DownloadCover (source : Source) (level : LevelInfo) (destPath : Path)
  (w : World) : option Error * World :=
  let (url, err) := JoinUrl ("https://" ++ source.(Host)) level.(Cover).(Url) in
  match err with
  | Some _ => (Some ErrUrlParse, w)
  | None =>
      let (resp, w) := http_Get net url w in
      match resp with
      | None => (Some ErrConnectParen, w)
      | Some resp =>
          if negb (resp.(StatusCode) =? 200)%Z then
            (Some (ErrConnectStatus resp.(StatusCode)), w)
          else
            (* the error of [os.MkdirAll] is dropped *)
            let (w, _) := os_MkdirAll destPath w in
            match image_Decode resp.(Body) with
            | None => (Some ErrLoadJacket, w)
            | Some imageData =>
                let newImage := image_NewRGBA (image_Rect 0 0 512 512) in
                let newImage :=
                  draw_Scale ApproxBiLinear newImage newImage.(Bounds)
                    imageData imageData.(Bounds) Over in
                let file := path_Join destPath "cover.png" in
                let (w, err) := os_Create file w in
                match err with
                | Some _ => (Some ErrCreateFile, w)
                | None =>
                    let (w, err) := file_Write file (png_Encode newImage) w in
                    match err with
                    | Some _ => (Some ErrWriteFile, w)
                    | None => (None, w)
                    end
                end
            end
      end
  end.

Definition DownloadBackground (source : Source) (level : LevelInfo)
  (destPath : Path) (w : World) : option Error * World :=
  let (backgroundUrl, err) :=
    JoinUrl ("https://" ++ source.(Host)) level.(UseBackground).(Item).(Image).(Url) in
  (* [resp, err := http.Get(backgroundUrl)] overwrites [err] unread *)
  let (resp, w) := http_Get net backgroundUrl w in
  match resp with
  | None => (Some ErrConnectDetail, w)
  | Some resp =>
      if negb (resp.(StatusCode) =? 200)%Z then
        (Some (ErrBackgroundNotFound resp.(StatusCode)), w)
      else
        let file := path_Join destPath "background.png" in
        let (w, err) := os_Create file w in
        match err with
        | Some _ => (Some ErrCreateFile, w)
        | None =>
            let (w, _) := io_Copy file resp.(Body) w in
            (* [if err != nil] tests the error of [os.Create] again *)
            match err with
            | Some _ => (Some ErrWriteFile, w)
            | None => (None, w)
            end
        end
  end.

End Pipeline.

(** ** Concrete collaborators for evaluating the operations *)

Definition empty_world : World := mkWorld [] [] 4096 [].

Definition ptlv_source : Source := fst (DetectChartSource "ptlv-abc123").

Definition net_status (status : Z) (body : list Byte.byte) : string -> option Response :=
  fun _ => Some (mkResponse status body).

(** A JSON decoder for the metadata envelope that fails on every body,
    leaving the envelope at its zero value. *)
Definition json_Decode_info_failing (_ : list Byte.byte) : InfoResponse.t * option string :=
  (InfoResponse.mk LevelInfo_zero "", Some "invalid character").

(** A stand-in gzip format: the two magic bytes, then the payload. *)
Definition gzip_compress_test (b : list Byte.byte) : list Byte.byte :=
  Byte.x1f :: Byte.x8b :: b.

Definition gzip_NewReader_test (b : list Byte.byte) : option (list Byte.byte) :=
  match b with
  | Byte.x1f :: Byte.x8b :: rest => Some rest
  | _ => None
  end.

(** A stand-in JSON codec for a level data that is a boolean. *)
Definition json_Marshal_test (d : bool) : list Byte.byte :=
  if d then [Byte.x74] else [Byte.x66].

Definition json_Decode_level_test (b : list Byte.byte) : option bool :=
  match b with
  | [Byte.x74] => Some true
  | [Byte.x66] => Some false
  | _ => None
  end.

Definition test_image : GoImage :=
  mkGoImage (image_Rect 0 0 100 50) (fun _ _ => mkRGBA 255 0 0 255).

Definition image_Decode_test (_ : list Byte.byte) : option GoImage := Some test_image.

Definition ApproxBiLinear_test : Scaler :=
  fun _ _ src sr _ x y => src.(At) (sr.(Min).(X) + x * Dx sr / 512) (sr.(Min).(Y) + y * Dy sr / 512).

Definition png_Encode_test (_ : GoImage) : list Byte.byte :=
  [Byte.x89; Byte.x50; Byte.x4e; Byte.x47].

Definition level_with_urls (data cover background : string) : LevelInfo :=
  mkLevelInfo (mkSRL data) (mkSRL cover) (mkUseItem false (mkBackgroundItem (mkSRL background))).

(** An image decoder that recognises no format. *)
Definition image_Decode_none (_ : list Byte.byte) : option GoImage := None.

Definition net_down : string -> option Response := fun _ => None.

(** ** Helper lemmas *)

Lemma prefix_https_app (s : string) : String.prefix "https://" ("https://" ++ s) = true.
Proof. destruct s; reflexivity. Qed.

Lemma string_app_assoc (a b c : string) : (a ++ b) ++ c = a ++ (b ++ c).
Proof. induction a as [|x a IH]; simpl; [reflexivity|now rewrite IH]. Qed.

(** Joining two well-formed URL pieces gives a well-formed URL. *)
Lemma url_malformed_app (a b : string) :
  url_malformed a = false -> url_malformed b = false -> url_malformed (a ++ b) = false.
Proof.
  intros Ha Hb. remember (String.length a) as n eqn:En.
  revert a Ha En. induction n as [n IH] using lt_wf_ind. intros a Ha En.
  destruct a as [|c rest]; [exact Hb|].
  cbn [append url_malformed] in *.
  destruct (is_ctl c); [discriminate|].
  destruct (Ascii.eqb c "%"%char).
  - destruct rest as [|x [|y rest']]; try discriminate.
    cbn [append] in *. destruct (is_hex x && is_hex y); [|discriminate].
    apply (IH (String.length rest')); [cbn in En; lia|exact Ha|reflexivity].
  - apply (IH (String.length rest)); [cbn in En; lia|exact Ha|reflexivity].
Qed.

(** A URL [JoinUrl] produces from the [https://] base is one [http.Get]
    accepts. *)
Lemma JoinUrl_https (host rel url : string) :
  JoinUrl ("https://" ++ host) rel = (url, None) ->
  has_http_scheme url && negb (url_malformed url) = true.
Proof.
  unfold JoinUrl.
  destruct (url_malformed ("https://" ++ host)) eqn:Eb; [discriminate|].
  destruct (url_malformed rel) eqn:Er; [discriminate|]. cbn [orb].
  destruct (has_http_scheme rel) eqn:E.
  - intros H; injection H as <-. rewrite E, Er. reflexivity.
  - destruct (String.prefix "/" rel); intros H; injection H as <-;
      apply andb_true_intro; split.
    + unfold has_http_scheme; cbn; destruct (host ++ rel); reflexivity.
    + apply negb_true_iff. exact (url_malformed_app ("https://" ++ host) rel Eb Er).
    + unfold has_http_scheme; cbn; destruct (host ++ String "/" rel); reflexivity.
    + apply negb_true_iff.
      exact (url_malformed_app ("https://" ++ host) ("/" ++ rel) Eb
               (url_malformed_app "/" rel eq_refl Er)).
Qed.

Lemma http_Get_https (net : string -> option Response) (s : string) (w : World) :
  url_malformed ("https://" ++ s) = false ->
  http_Get net ("https://" ++ s) w
  = (net ("https://" ++ s),
     mkWorld w.(fs_dirs) w.(fs_files) w.(fs_space) (("https://" ++ s) :: w.(requests))).
Proof.
  intros H. unfold http_Get, has_http_scheme. rewrite prefix_https_app, H. reflexivity.
Qed.

Lemma http_Get_https_bad (net : string -> option Response) (s : string) (w : World) :
  url_malformed ("https://" ++ s) = true -> http_Get net ("https://" ++ s) w = (None, w).
Proof. intros H. unfold http_Get. rewrite H, andb_false_r. reflexivity. Qed.

Lemma http_Get_scheme (net : string -> option Response) (url : string) (w : World) :
  has_http_scheme url && negb (url_malformed url) = true ->
  http_Get net url w
  = (net url, mkWorld w.(fs_dirs) w.(fs_files) w.(fs_space) (url :: w.(requests))).
Proof. intros H. unfold http_Get. rewrite H. reflexivity. Qed.

Lemma http_Get_fs (net : string -> option Response) (url : string) (w : World) :
  (snd (http_Get net url w)).(fs_dirs) = w.(fs_dirs)
  /\ (snd (http_Get net url w)).(fs_files) = w.(fs_files)
  /\ (snd (http_Get net url w)).(fs_space) = w.(fs_space).
Proof. unfold http_Get. destruct (_ && _); simpl; auto. Qed.

Lemma path_eqb_refl (p : Path) : path_eqb p p = true.
Proof. unfold path_eqb. destruct (list_eq_dec string_dec p p); congruence. Qed.

Lemma lookup_set_file (p : Path) (c : list Byte.byte) (w : World) :
  lookup_file p (set_file p c w) = Some c.
Proof. unfold lookup_file, set_file. simpl. rewrite path_eqb_refl. reflexivity. Qed.

Lemma lookup_set_space (p : Path) (n : nat) (w : World) :
  lookup_file p (set_space n w) = lookup_file p w.
Proof. reflexivity. Qed.

Lemma dir_exists_MkdirAll (p : Path) (w : World) :
  mkdir_blocked p w = false -> dir_exists p (fst (os_MkdirAll p w)) = true.
Proof.
  intros H. unfold os_MkdirAll. rewrite H. cbn [fst].
  destruct p as [|c p]; [reflexivity|].
  cbn [dir_exists].
  apply existsb_exists. exists (c :: p). split; [|apply path_eqb_refl].
  cbn [fs_dirs]. apply in_or_app. left. apply in_map_iff. exists (length (c :: p)).
  split; [apply firstn_all|]. apply in_seq. simpl. lia.
Qed.

Lemma os_MkdirAll_fs (p : Path) (w : World) :
  (fst (os_MkdirAll p w)).(fs_files) = w.(fs_files)
  /\ (fst (os_MkdirAll p w)).(fs_space) = w.(fs_space)
  /\ (fst (os_MkdirAll p w)).(requests) = w.(requests).
Proof. unfold os_MkdirAll. destruct (mkdir_blocked p w); repeat split. Qed.

Lemma os_MkdirAll_lookup (p q : Path) (w : World) :
  lookup_file q (fst (os_MkdirAll p w)) = lookup_file q w.
Proof. unfold os_MkdirAll. destruct (mkdir_blocked p w); reflexivity. Qed.

Lemma os_MkdirAll_spec (p : Path) (w w0 : World) (e : option string) :
  os_MkdirAll p w = (w0, e) ->
  w0.(fs_files) = w.(fs_files) /\ w0.(fs_space) = w.(fs_space)
  /\ w0.(requests) = w.(requests)
  /\ (mkdir_blocked p w = false -> dir_exists p w0 = true)
  /\ (forall q, lookup_file q w0 = lookup_file q w).
Proof.
  intros H.
  pose proof (os_MkdirAll_fs p w) as Hfs. pose proof (dir_exists_MkdirAll p w) as Hd.
  pose proof (os_MkdirAll_lookup p) as Hl.
  rewrite H in Hfs, Hd. cbn [fst] in Hfs, Hd.
  destruct Hfs as (? & ? & ?). repeat split; auto.
  intros q. specialize (Hl q w). rewrite H in Hl. exact Hl.
Qed.

(** The [os.MkdirAll] step of [DownloadCover]: name its resulting world
    and record what is known about it. *)
Ltac mkdir_step :=
  match goal with
  | |- context [os_MkdirAll ?p ?w1] =>
      let w0 := fresh "w0" in let e0 := fresh "e0" in let EM := fresh "EM" in
      destruct (os_MkdirAll p w1) as [w0 e0] eqn:EM;
      destruct (os_MkdirAll_spec _ _ _ _ EM) as (Hf & Hsp & Hrq & Hdir & Hlk);
      cbn [fs_files fs_space requests fs_dirs] in Hf, Hsp, Hrq;
      cbv beta iota
  end.

Lemma dir_exists_ext (d : Path) (w1 w2 : World) :
  w1.(fs_dirs) = w2.(fs_dirs) -> dir_exists d w1 = dir_exists d w2.
Proof. intros H. unfold dir_exists. rewrite H. reflexivity. Qed.

Lemma removelast_path_Join (p : Path) (name : string) :
  removelast (path_Join p name) = p.
Proof. unfold path_Join. apply removelast_last. Qed.

Lemma path_eqb_true (p q : Path) : path_eqb p q = true <-> p = q.
Proof. unfold path_eqb. destruct (list_eq_dec string_dec p q); split; congruence. Qed.

Lemma path_eqb_false (p q : Path) : p <> q -> path_eqb p q = false.
Proof. intros H. unfold path_eqb. destruct (list_eq_dec string_dec p q); congruence. Qed.

Lemma lookup_set_file_other (p q : Path) (c : list Byte.byte) (w : World) :
  p <> q -> lookup_file p (set_file q c w) = lookup_file p w.
Proof.
  intros Hne. unfold lookup_file, set_file. cbn [fs_files find fst].
  rewrite (path_eqb_false q p) by congruence.
  generalize (fs_files w) as l. induction l as [|[p' c'] l IH]; [reflexivity|].
  cbn [filter fst]. destruct (path_eqb p' q) eqn:E1; cbn [negb find fst].
  - apply path_eqb_true in E1. subst p'.
    rewrite (path_eqb_false q p) by congruence. exact IH.
  - destruct (path_eqb p' p); [reflexivity|exact IH].
Qed.

Lemma http_Get_lookup (net : string -> option Response) (u : string) (w w1 : World)
  (resp : option Response) (p : Path) :
  http_Get net u w = (resp, w1) -> lookup_file p w1 = lookup_file p w.
Proof.
  unfold http_Get. destruct (_ && _); intros H; injection H as _ <-; reflexivity.
Qed.

Lemma os_Create_lookup_other (q p : Path) (w w1 : World) (e : option string) :
  os_Create q w = (w1, e) -> p <> q -> lookup_file p w1 = lookup_file p w.
Proof.
  unfold os_Create. destruct (dir_exists _ _); intros H Hne; injection H as <- _;
    [apply lookup_set_file_other; exact Hne | reflexivity].
Qed.

Lemma os_Create_dirs (q : Path) (w w1 : World) (e : option string) :
  os_Create q w = (w1, e) -> w1.(fs_dirs) = w.(fs_dirs).
Proof.
  unfold os_Create. destruct (dir_exists _ _); intros H; injection H as <- _; reflexivity.
Qed.

Lemma file_Write_lookup_other (q p : Path) (b : list Byte.byte) (w w1 : World)
  (e : option string) :
  file_Write q b w = (w1, e) -> p <> q -> lookup_file p w1 = lookup_file p w.
Proof.
  unfold file_Write. destruct (_ <=? _)%nat; intros H Hne; injection H as <- _;
    rewrite lookup_set_space; apply lookup_set_file_other; exact Hne.
Qed.





Lemma file_Write_dirs_eq (q : Path) (b : list Byte.byte) (w w1 : World) (e : option string) :
  file_Write q b w = (w1, e) -> w1.(fs_dirs) = w.(fs_dirs).
Proof.
  unfold file_Write. destruct (_ <=? _)%nat; intros H; injection H as <- _; reflexivity.
Qed.

(** ** Source detection *)

Example detect_ptlv :
  DetectChartSource "ptlv-abc123"
  = (mkSource "potato_leaves" "Potato Leaves" 0x88cb7f "ptlv.sevenc7c.com", None).
Proof. reflexivity. Qed.

Example detect_unknown :
  DetectChartSource "xyz-000" = (mkSource "xyz-000" "" 0 "", Some ErrUnknownSource).
Proof. reflexivity. Qed.

(** C1: when [chartId] has a registered prefix (the first in declaration
    order that matches), [DetectChartSource] returns a nil error and a
    source with that entry's [Id] and its [Host], which is non-empty; with
    no registered prefix it returns the "unknown chart source" error and
    the source [{Id: chartId, Name: "", Color: 0, Host: ""}]. *)
Theorem DetectChartSource_resolve (chartId : string) :
  match find (fun e => strings_HasPrefix chartId (fst (fst e))) registered_sources with
  | Some (_, id, host) =>
      snd (DetectChartSource chartId) = None
      /\ (fst (DetectChartSource chartId)).(Id) = id
      /\ (fst (DetectChartSource chartId)).(Host) = host
      /\ String.eqb host "" = false
  | None =>
      DetectChartSource chartId = (mkSource chartId "" 0 "", Some ErrUnknownSource)
      /\ error_kind ErrUnknownSource = UnknownSource
  end.
Proof.
  unfold DetectChartSource, registered_sources. cbn [find fst snd].
  destruct (strings_HasPrefix chartId "ptlv-");
    [|destruct (strings_HasPrefix chartId "chcy-")];
    repeat split.
Qed.

(** ** Metadata *)





(** ** Level data *)

(** C3: for a gzip library whose reader opens what its writer produced
    and a JSON library whose decoder inverts its encoder, a 200 response
    carrying the gzip-compressed JSON encoding of a level data [d] makes
    [FetchLevelData] return [d] with a nil error; a 200 response whose
    body the gzip reader refuses makes it fail with "Loading chart data
    failed.", of the decode kind, and the zero level data. *)
Theorem FetchLevelData_roundtrip
  (net : string -> option Response) (LevelData : Type) (LevelData_zero : LevelData)
  (gzip_NewReader : list Byte.byte -> option (list Byte.byte))
  (json_Decode_level : list Byte.byte -> option LevelData)
  (gzip_compress : list Byte.byte -> list Byte.byte)
  (json_Marshal : LevelData -> list Byte.byte)
  (Hgzip : forall b, gzip_NewReader (gzip_compress b) = Some b)
  (Hjson : forall d, json_Decode_level (json_Marshal d) = Some d)
  (source : Source) (level : LevelInfo) (w : World) (url : string) :
  JoinUrl ("https://" ++ source.(Host)) level.(Data).(Url) = (url, None) ->
  (forall d, net url = Some (mkResponse 200 (gzip_compress (json_Marshal d))) ->
     fst (FetchLevelData net LevelData LevelData_zero gzip_NewReader json_Decode_level
            source level w) = (d, None))
  /\ (forall body, net url = Some (mkResponse 200 body) -> gzip_NewReader body = None ->
     fst (FetchLevelData net LevelData LevelData_zero gzip_NewReader json_Decode_level
            source level w) = (LevelData_zero, Some ErrLoadChartData)
     /\ error_kind ErrLoadChartData = Decode).
Proof.
  intros HJ. unfold FetchLevelData. rewrite HJ.
  rewrite (http_Get_scheme net url w (JoinUrl_https _ _ _ HJ)).
  split.
  - intros d Hnet. rewrite Hnet. cbn [fst StatusCode Body Z.eqb negb].
    rewrite Hgzip, Hjson. reflexivity.
  - intros body Hnet Hgz. rewrite Hnet. cbn [fst StatusCode Body Z.eqb negb].
    rewrite Hgz. split; reflexivity.
Qed.

Lemma FetchLevelData_roundtrip_witness :
  JoinUrl ("https://" ++ ptlv_source.(Host)) "data.json.gz"
    = ("https://ptlv.sevenc7c.com/data.json.gz", None)
  /\ fst (FetchLevelData
            (net_status 200 (gzip_compress_test (json_Marshal_test true)))
            bool false gzip_NewReader_test json_Decode_level_test
            ptlv_source (level_with_urls "data.json.gz" "" "") empty_world)
     = (true, None).
Proof.
  split; [reflexivity|].
  exact (proj1 (FetchLevelData_roundtrip
                  (net_status 200 (gzip_compress_test (json_Marshal_test true)))
                  bool false gzip_NewReader_test json_Decode_level_test
                  gzip_compress_test json_Marshal_test
                  (fun b => eq_refl) ltac:(intros []; reflexivity)
                  ptlv_source (level_with_urls "data.json.gz" "" "") empty_world
                  "https://ptlv.sevenc7c.com/data.json.gz" eq_refl)
               true eq_refl).
Defined.

(** ** Cover *)

(** C2: whatever the bounds of the decoded cover image, once it is
    decoded [DownloadCover] draws it with [draw.ApproxBiLinear] from its
    whole bounds onto the whole of a new 512x512 RGBA image, and (when
    the device has room for the encoding and neither [destPath] nor one
    of its ancestors is a regular file) returns a nil error with
    [{destPath}/cover.png] holding exactly the PNG encoding of that
    512x512 image. *)
Theorem DownloadCover_512
  (net : string -> option Response) (image_Decode : list Byte.byte -> option GoImage)
  (ApproxBiLinear : Scaler) (png_Encode : GoImage -> list Byte.byte)
  (source : Source) (level : LevelInfo) (destPath : Path) (w : World)
  (url : string) (r : Response) (img : GoImage) :
  JoinUrl ("https://" ++ source.(Host)) level.(Cover).(Url) = (url, None) ->
  net url = Some r ->
  r.(StatusCode) = 200%Z ->
  mkdir_blocked destPath w = false ->
  image_Decode r.(Body) = Some img ->
  let blank := image_NewRGBA (image_Rect 0 0 512 512) in
  let newImage := draw_Scale ApproxBiLinear blank blank.(Bounds) img img.(Bounds) Over in
  (length (png_Encode newImage) <= w.(fs_space))%nat ->
  exists w',
    DownloadCover net image_Decode ApproxBiLinear png_Encode source level destPath w
    = (None, w')
    /\ lookup_file (path_Join destPath "cover.png") w' = Some (png_Encode newImage)
    /\ newImage.(Bounds) = image_Rect 0 0 512 512
    /\ Dx newImage.(Bounds) = 512%Z /\ Dy newImage.(Bounds) = 512%Z.
Proof.
  intros HJ Hnet Hst Hblk Hdec blank newImage Hspace.
  unfold DownloadCover. rewrite HJ.
  rewrite (http_Get_scheme net url w (JoinUrl_https _ _ _ HJ)), Hnet, Hst.
  cbn [negb Z.eqb Pos.eqb].
  mkdir_step. specialize (Hdir Hblk).
  rewrite Hdec.
  unfold os_Create. rewrite removelast_path_Join, Hdir.
  unfold file_Write. rewrite lookup_set_file.
  fold blank newImage.
  replace (length (png_Encode newImage) <=? _)%nat with true
    by (symmetry; apply Nat.leb_le; cbn [set_file fs_space]; rewrite Hsp; exact Hspace).
  eexists. split; [reflexivity|].
  rewrite lookup_set_space, lookup_set_file. repeat split.
Qed.

Lemma DownloadCover_512_witness :
  test_image.(Bounds) = image_Rect 0 0 100 50
  /\ JoinUrl ("https://" ++ ptlv_source.(Host)) "cover.png"
     = ("https://ptlv.sevenc7c.com/cover.png", None)
  /\ exists w',
       DownloadCover (net_status 200 [Byte.x89]) image_Decode_test ApproxBiLinear_test
         png_Encode_test ptlv_source (level_with_urls "" "cover.png" "") ["out"]
         empty_world = (None, w')
       /\ lookup_file (path_Join ["out"] "cover.png") w'
          = Some (png_Encode_test
                    (draw_Scale ApproxBiLinear_test (image_NewRGBA (image_Rect 0 0 512 512))
                       (image_Rect 0 0 512 512) test_image test_image.(Bounds) Over)).
Proof.
  split; [reflexivity|]. split; [reflexivity|].
  destruct (DownloadCover_512 (net_status 200 [Byte.x89]) image_Decode_test
              ApproxBiLinear_test png_Encode_test ptlv_source
              (level_with_urls "" "cover.png" "") ["out"] empty_world
              "https://ptlv.sevenc7c.com/cover.png" (mkResponse 200 [Byte.x89]) test_image
              eq_refl eq_refl eq_refl eq_refl eq_refl ltac:(simpl; lia))
    as [w' [H1 [H2 _]]].
  exists w'. split; [exact H1 | exact H2].
Defined.

(** ** Background *)

(** C4: when the background GET answers 200, the destination directory
    exists and the device has room for the body, [DownloadBackground]
    returns a nil error and [{destPath}/background.png] holds exactly the
    bytes of the response body. *)
Theorem DownloadBackground_copies_body
  (net : string -> option Response) (source : Source) (level : LevelInfo)
  (destPath : Path) (w : World) (r : Response) :
  fst (http_Get net
         (fst (JoinUrl ("https://" ++ source.(Host))
                 level.(UseBackground).(Item).(Image).(Url))) w) = Some r ->
  r.(StatusCode) = 200%Z ->
  dir_exists destPath w = true ->
  (length r.(Body) <= w.(fs_space))%nat ->
  exists w',
    DownloadBackground net source level destPath w = (None, w')
    /\ lookup_file (path_Join destPath "background.png") w' = Some r.(Body).
Proof.
  intros Hget Hst Hdir Hspace. unfold DownloadBackground.
  destruct (JoinUrl _ _) as [bu e]. cbn [fst] in Hget.
  destruct (http_Get net bu w) as [resp w1] eqn:EG.
  destruct (http_Get_fs net bu w) as [Hd [_ Hs]]. rewrite EG in Hd, Hs.
  cbn [fst snd] in Hget, Hd, Hs. subst resp. rewrite Hst. cbn [negb Z.eqb Pos.eqb].
  unfold os_Create. rewrite removelast_path_Join, (dir_exists_ext _ _ _ Hd), Hdir.
  unfold io_Copy, file_Write. rewrite lookup_set_file.
  replace (length (Body r) <=? _)%nat with true
    by (symmetry; apply Nat.leb_le; cbn; rewrite Hs; exact Hspace).
  eexists. split; [reflexivity|].
  rewrite lookup_set_space, lookup_set_file. reflexivity.
Qed.

Lemma DownloadBackground_copies_body_witness :
  fst (http_Get (net_status 200 [Byte.x00; Byte.xff])
         (fst (JoinUrl ("https://" ++ ptlv_source.(Host)) "bg.png")) empty_world)
    = Some (mkResponse 200 [Byte.x00; Byte.xff])
  /\ exists w',
       DownloadBackground (net_status 200 [Byte.x00; Byte.xff]) ptlv_source
         (level_with_urls "" "" "bg.png") [] empty_world = (None, w')
       /\ lookup_file (path_Join [] "background.png") w' = Some [Byte.x00; Byte.xff].
Proof.
  split; [reflexivity|].
  exact (DownloadBackground_copies_body (net_status 200 [Byte.x00; Byte.xff]) ptlv_source
           (level_with_urls "" "" "bg.png") [] empty_world (mkResponse 200 [Byte.x00; Byte.xff])
           eq_refl eq_refl eq_refl ltac:(simpl; lia)).
Defined.

(** C10: the test after [io.Copy] in [DownloadBackground] reads the error
    of [os.Create], already known to be nil, not the copy's own error:
    whenever the GET answers 200 and the file can be created, the result
    is the nil error, whatever room the device has for the body. *)
Theorem DownloadBackground_ignores_copy_error
  (net : string -> option Response) (source : Source) (level : LevelInfo)
  (destPath : Path) (w : World) (r : Response) :
  fst (http_Get net
         (fst (JoinUrl ("https://" ++ source.(Host))
                 level.(UseBackground).(Item).(Image).(Url))) w) = Some r ->
  r.(StatusCode) = 200%Z ->
  dir_exists destPath w = true ->
  fst (DownloadBackground net source level destPath w) = None.
Proof.
  intros Hget Hst Hdir. unfold DownloadBackground.
  destruct (JoinUrl _ _) as [bu e]. cbn [fst] in Hget.
  destruct (http_Get net bu w) as [resp w1] eqn:EG.
  destruct (http_Get_fs net bu w) as [Hd _]. rewrite EG in Hd.
  cbn [fst snd] in Hget, Hd. subst resp. rewrite Hst. cbn [negb Z.eqb Pos.eqb].
  unfold os_Create. rewrite removelast_path_Join, (dir_exists_ext _ _ _ Hd), Hdir.
  destruct (io_Copy _ _ _). reflexivity.
Qed.

(** On a device with no room left, the copy of a non-empty body fails,
    [background.png] is left empty, and the result is still nil. *)
Lemma DownloadBackground_ignores_copy_error_witness :
  snd (io_Copy (path_Join [] "background.png") [Byte.x00; Byte.xff]
         (set_file (path_Join [] "background.png") []
            (mkWorld [] [] 0 ["https://ptlv.sevenc7c.com/bg.png"])))
    = Some "no space left on device"
  /\ lookup_file (path_Join [] "background.png")
       (snd (DownloadBackground (net_status 200 [Byte.x00; Byte.xff]) ptlv_source
               (level_with_urls "" "" "bg.png") [] (mkWorld [] [] 0 []))) = Some []
  /\ fst (DownloadBackground (net_status 200 [Byte.x00; Byte.xff]) ptlv_source
            (level_with_urls "" "" "bg.png") [] (mkWorld [] [] 0 [])) = None.
Proof.
  split; [reflexivity|]. split; [reflexivity|].
  exact (DownloadBackground_ignores_copy_error (net_status 200 [Byte.x00; Byte.xff])
           ptlv_source (level_with_urls "" "" "bg.png") [] (mkWorld [] [] 0 [])
           (mkResponse 200 [Byte.x00; Byte.xff]) eq_refl eq_refl eq_refl).
Defined.

(** ** URL resolution failures *)

(** In [FetchLevelData], a URL that [JoinUrl] rejects fails with "URL
    parsing failed." and the world unchanged: no request is sent. *)
Lemma FetchLevelData_bad_url
  (net : string -> option Response) (LevelData : Type) (LevelData_zero : LevelData)
  (gzip_NewReader : list Byte.byte -> option (list Byte.byte))
  (json_Decode_level : list Byte.byte -> option LevelData)
  (source : Source) (level : LevelInfo) (w : World) (msg : string) :
  snd (JoinUrl ("https://" ++ source.(Host)) level.(Data).(Url)) = Some msg ->
  FetchLevelData net LevelData LevelData_zero gzip_NewReader json_Decode_level source level w
  = ((LevelData_zero, Some ErrUrlParse), w).
Proof.
  intros H. unfold FetchLevelData.
  destruct (JoinUrl _ _) as [u e]. cbn [snd] in H. subst e. reflexivity.
Qed.

(** The same holds for the cover URL in [DownloadCover]. *)
Lemma DownloadCover_bad_url
  (net : string -> option Response) (image_Decode : list Byte.byte -> option GoImage)
  (ApproxBiLinear : Scaler) (png_Encode : GoImage -> list Byte.byte)
  (source : Source) (level : LevelInfo) (destPath : Path) (w : World) (msg : string) :
  snd (JoinUrl ("https://" ++ source.(Host)) level.(Cover).(Url)) = Some msg ->
  DownloadCover net image_Decode ApproxBiLinear png_Encode source level destPath w
  = (Some ErrUrlParse, w).
Proof.
  intros H. unfold DownloadCover.
  destruct (JoinUrl _ _) as [u e]. cbn [snd] in H. subst e. reflexivity.
Qed.

(** C6 (defect): [DownloadBackground] drops the error of [JoinUrl]. For
    the malformed background URL ["%zz"] it calls [http.Get] on the empty
    URL [JoinUrl] returned and fails with "Could not connect to server.",
    of the connectivity kind, instead of a URL-parsing error. *)
Theorem DownloadBackground_bad_url_not_reported :
  JoinUrl ("https://" ++ ptlv_source.(Host)) "%zz" = ("", Some "invalid URL")
  /\ DownloadBackground (net_status 200 [Byte.x00]) ptlv_source
       (level_with_urls "" "" "%zz") [] empty_world
     = (Some ErrConnectDetail, empty_world)
  /\ error_kind ErrConnectDetail = Connectivity.
Proof. repeat split. Qed.

(** ** HTTP failures of the downloads *)

Lemma file_Write_dirs (p : Path) (b : list Byte.byte) (w : World) :
  (fst (file_Write p b w)).(fs_dirs) = w.(fs_dirs).
Proof. unfold file_Write. destruct (_ <=? _)%nat; reflexivity. Qed.

(** When the cover GET fails or answers a status other than 200,
    [DownloadCover] leaves the file system as it was. *)
Lemma DownloadCover_http_failure_keeps_files
  (net : string -> option Response) (image_Decode : list Byte.byte -> option GoImage)
  (ApproxBiLinear : Scaler) (png_Encode : GoImage -> list Byte.byte)
  (source : Source) (level : LevelInfo) (destPath : Path) (w : World) :
  (forall r, fst (http_Get net (fst (JoinUrl ("https://" ++ source.(Host))
                                      level.(Cover).(Url))) w) = Some r ->
             r.(StatusCode) <> 200%Z) ->
  (snd (DownloadCover net image_Decode ApproxBiLinear png_Encode source level destPath w)).(fs_files)
  = w.(fs_files)
  /\ (snd (DownloadCover net image_Decode ApproxBiLinear png_Encode source level destPath w)).(fs_dirs)
  = w.(fs_dirs).
Proof.
  intros H. unfold DownloadCover.
  destruct (JoinUrl _ _) as [u [e|]]; [split; reflexivity|]. cbn [fst] in H.
  destruct (http_Get net u w) as [resp w1] eqn:EG.
  destruct (http_Get_fs net u w) as [Hd [Hf _]]. rewrite EG in Hd, Hf.
  cbn [fst snd] in H, Hd, Hf.
  destruct resp as [r|]; [|split; assumption].
  specialize (H r eq_refl). apply Z.eqb_neq in H. rewrite H. split; assumption.
Qed.

(** When the background GET fails or answers a status other than 200,
    [DownloadBackground] leaves the file system as it was. *)
Lemma DownloadBackground_http_failure_keeps_files
  (net : string -> option Response) (source : Source) (level : LevelInfo)
  (destPath : Path) (w : World) :
  (forall r, fst (http_Get net (fst (JoinUrl ("https://" ++ source.(Host))
                                      level.(UseBackground).(Item).(Image).(Url))) w)
             = Some r -> r.(StatusCode) <> 200%Z) ->
  (snd (DownloadBackground net source level destPath w)).(fs_files) = w.(fs_files)
  /\ (snd (DownloadBackground net source level destPath w)).(fs_dirs) = w.(fs_dirs).
Proof.
  intros H. unfold DownloadBackground.
  destruct (JoinUrl _ _) as [u e]. cbn [fst] in H.
  destruct (http_Get net u w) as [resp w1] eqn:EG.
  destruct (http_Get_fs net u w) as [Hd [Hf _]]. rewrite EG in Hd, Hf.
  cbn [fst snd] in H, Hd, Hf.
  destruct resp as [r|]; [|split; assumption].
  specialize (H r eq_refl). apply Z.eqb_neq in H. rewrite H. split; assumption.
Qed.

(** C7 (defect): a 404 from the cover endpoint makes [DownloadCover]
    fail with "Could not connect to server. [404]", of the connectivity
    kind, not with a not-found error as the other endpoints do; no
    [cover.png] is written. *)
Theorem DownloadCover_404_not_a_not_found_error :
  DownloadCover (net_status 404 []) image_Decode_test ApproxBiLinear_test png_Encode_test
    ptlv_source (level_with_urls "" "cover.png" "") ["out"] empty_world
  = (Some (ErrConnectStatus 404),
     mkWorld [] [] 4096 ["https://ptlv.sevenc7c.com/cover.png"])
  /\ error_kind (ErrConnectStatus 404) = Connectivity
  /\ lookup_file (path_Join ["out"] "cover.png")
       (mkWorld [] [] 4096 ["https://ptlv.sevenc7c.com/cover.png"]) = None.
Proof. repeat split. Qed.

(** ** Destination directory *)

(** Once the cover GET answers 200, and when neither [destPath] nor one
    of its ancestors is a regular file, [DownloadCover] has made
    [destPath] a directory ([os.MkdirAll(destPath, 0755)]), whatever
    happens next. *)
Lemma DownloadCover_creates_destPath
  (net : string -> option Response) (image_Decode : list Byte.byte -> option GoImage)
  (ApproxBiLinear : Scaler) (png_Encode : GoImage -> list Byte.byte)
  (source : Source) (level : LevelInfo) (destPath : Path) (w : World)
  (url : string) (r : Response) :
  JoinUrl ("https://" ++ source.(Host)) level.(Cover).(Url) = (url, None) ->
  net url = Some r ->
  r.(StatusCode) = 200%Z ->
  mkdir_blocked destPath w = false ->
  dir_exists destPath
    (snd (DownloadCover net image_Decode ApproxBiLinear png_Encode source level destPath w))
  = true.
Proof.
  intros HJ Hnet Hst Hblk. unfold DownloadCover. rewrite HJ.
  rewrite (http_Get_scheme net url w (JoinUrl_https _ _ _ HJ)), Hnet, Hst.
  cbn [negb Z.eqb Pos.eqb].
  mkdir_step. specialize (Hdir Hblk) as H0.
  destruct (image_Decode (Body r)) as [img|]; [|exact H0].
  unfold os_Create. destruct (dir_exists (removelast _) w0); [|exact H0].
  match goal with |- context [file_Write ?p ?b ?w'] =>
    pose proof (file_Write_dirs p b w') as Hd; destruct (file_Write p b w') as [w2 e] end.
  cbn [fst] in Hd.
  destruct e; cbn [snd]; rewrite (dir_exists_ext _ _ _ Hd); exact H0.
Qed.

(** C8 (defect): [DownloadBackground] never creates the destination
    directory. Called on its own with a [destPath] that does not exist,
    it fails with "Failed to create file." and writes no
    [background.png], where [DownloadCover] creates the directory first. *)
Theorem DownloadBackground_missing_destPath :
  dir_exists ["out"] empty_world = false
  /\ fst (DownloadBackground (net_status 200 [Byte.x00]) ptlv_source
            (level_with_urls "" "" "bg.png") ["out"] empty_world) = Some ErrCreateFile
  /\ lookup_file (path_Join ["out"] "background.png")
       (snd (DownloadBackground (net_status 200 [Byte.x00]) ptlv_source
               (level_with_urls "" "" "bg.png") ["out"] empty_world)) = None
  /\ fst (DownloadCover (net_status 200 [Byte.x00]) image_Decode_test ApproxBiLinear_test
            png_Encode_test ptlv_source (level_with_urls "" "cover.png" "") ["out"]
            empty_world) = None.
Proof. repeat split. Qed.

(** ** Further properties of chart.go *)

(** [DetectChartSource] returns a nil error exactly when the source it
    returns has a non-empty [Host]. *)
Theorem DetectChartSource_nil_error_iff_host (chartId : string) :
  snd (DetectChartSource chartId) = None
  <-> String.eqb (fst (DetectChartSource chartId)).(Host) "" = false.
Proof.
  unfold DetectChartSource.
  destruct (strings_HasPrefix chartId "ptlv-");
    [|destruct (strings_HasPrefix chartId "chcy-")]; cbn; split; congruence.
Qed.


(** When the metadata request fails in transport, [FetchChart] returns
    the zero [LevelInfo] with "Could not connect to server.", of the
    connectivity kind. *)
Theorem FetchChart_transport_failure
  (net : string -> option Response)
  (json_Decode_info : list Byte.byte -> InfoResponse.t * option string)
  (source : Source) (chartId : string) (w : World) :
  net ("https://" ++ source.(Host) ++ "/sonolus/levels/" ++ chartId) = None ->
  fst (FetchChart net json_Decode_info source chartId w) = (LevelInfo_zero, Some ErrConnect)
  /\ error_kind ErrConnect = Connectivity.
Proof.
  intros Hnet. unfold FetchChart.
  destruct (url_malformed ("https://" ++ source.(Host) ++ "/sonolus/levels/" ++ chartId))
    eqn:Hurl.
  - rewrite (http_Get_https_bad _ _ _ Hurl). split; reflexivity.
  - rewrite (http_Get_https _ _ _ Hurl), Hnet. split; reflexivity.
Qed.

Lemma FetchChart_transport_failure_witness :
  net_down ("https://" ++ ptlv_source.(Host) ++ "/sonolus/levels/" ++ "ptlv-abc123") = None
  /\ fst (FetchChart net_down json_Decode_info_failing ptlv_source "ptlv-abc123" empty_world)
     = (LevelInfo_zero, Some ErrConnect).
Proof.
  split; [reflexivity|].
  exact (proj1 (FetchChart_transport_failure net_down json_Decode_info_failing
                  ptlv_source "ptlv-abc123" empty_world eq_refl)).
Defined.


(** When the level-data GET answers a status other than 200,
    [FetchLevelData] fails with "No chart data found. [status]", of the
    not-found kind, and the zero level data, for any gzip and JSON
    library: the body is never decoded. *)
Theorem FetchLevelData_non_200
  (net : string -> option Response) (LevelData : Type) (LevelData_zero : LevelData)
  (gzip_NewReader : list Byte.byte -> option (list Byte.byte))
  (json_Decode_level : list Byte.byte -> option LevelData)
  (source : Source) (level : LevelInfo) (w : World) (url : string) (r : Response) :
  JoinUrl ("https://" ++ source.(Host)) level.(Data).(Url) = (url, None) ->
  net url = Some r ->
  r.(StatusCode) <> 200%Z ->
  fst (FetchLevelData net LevelData LevelData_zero gzip_NewReader json_Decode_level
         source level w)
  = (LevelData_zero, Some (ErrChartDataNotFound r.(StatusCode)))
  /\ error_kind (ErrChartDataNotFound r.(StatusCode)) = NotFound.
Proof.
  intros HJ Hnet Hst. unfold FetchLevelData. rewrite HJ.
  rewrite (http_Get_scheme net url w (JoinUrl_https _ _ _ HJ)), Hnet.
  apply Z.eqb_neq in Hst. cbn [fst]. rewrite Hst. split; reflexivity.
Qed.

Lemma FetchLevelData_non_200_witness :
  fst (FetchLevelData (net_status 503 []) bool false gzip_NewReader_test
         json_Decode_level_test ptlv_source (level_with_urls "data.json.gz" "" "")
         empty_world)
  = (false, Some (ErrChartDataNotFound 503)).
Proof.
  exact (proj1 (FetchLevelData_non_200 (net_status 503 []) bool false gzip_NewReader_test
                  json_Decode_level_test ptlv_source (level_with_urls "data.json.gz" "" "")
                  empty_world "https://ptlv.sevenc7c.com/data.json.gz" (mkResponse 503 [])
                  eq_refl eq_refl ltac:(discriminate))).
Defined.

(** When the level-data GET fails in transport, [FetchLevelData] fails
    with "Could not connect to server.", of the connectivity kind. *)
Theorem FetchLevelData_transport_failure
  (net : string -> option Response) (LevelData : Type) (LevelData_zero : LevelData)
  (gzip_NewReader : list Byte.byte -> option (list Byte.byte))
  (json_Decode_level : list Byte.byte -> option LevelData)
  (source : Source) (level : LevelInfo) (w : World) (url : string) :
  JoinUrl ("https://" ++ source.(Host)) level.(Data).(Url) = (url, None) ->
  net url = None ->
  fst (FetchLevelData net LevelData LevelData_zero gzip_NewReader json_Decode_level
         source level w)
  = (LevelData_zero, Some ErrConnectDetail)
  /\ error_kind ErrConnectDetail = Connectivity.
Proof.
  intros HJ Hnet. unfold FetchLevelData. rewrite HJ.
  rewrite (http_Get_scheme net url w (JoinUrl_https _ _ _ HJ)), Hnet. split; reflexivity.
Qed.

Lemma FetchLevelData_transport_failure_witness :
  fst (FetchLevelData net_down bool false gzip_NewReader_test json_Decode_level_test
         ptlv_source (level_with_urls "data.json.gz" "" "") empty_world)
  = (false, Some ErrConnectDetail).
Proof.
  exact (proj1 (FetchLevelData_transport_failure net_down bool false gzip_NewReader_test
                  json_Decode_level_test ptlv_source (level_with_urls "data.json.gz" "" "")
                  empty_world "https://ptlv.sevenc7c.com/data.json.gz" eq_refl eq_refl)).
Defined.

(** When the 200 body opens as gzip but its content does not decode as
    JSON, [FetchLevelData] fails with "Loading chart data failed." and
    the zero level data, as when the gzip stream does not open. *)
Theorem FetchLevelData_json_failure
  (net : string -> option Response) (LevelData : Type) (LevelData_zero : LevelData)
  (gzip_NewReader : list Byte.byte -> option (list Byte.byte))
  (json_Decode_level : list Byte.byte -> option LevelData)
  (source : Source) (level : LevelInfo) (w : World) (url : string) (r : Response)
  (content : list Byte.byte) :
  JoinUrl ("https://" ++ source.(Host)) level.(Data).(Url) = (url, None) ->
  net url = Some r ->
  r.(StatusCode) = 200%Z ->
  gzip_NewReader r.(Body) = Some content ->
  json_Decode_level content = None ->
  fst (FetchLevelData net LevelData LevelData_zero gzip_NewReader json_Decode_level
         source level w)
  = (LevelData_zero, Some ErrLoadChartData).
Proof.
  intros HJ Hnet Hst Hgz Hjs. unfold FetchLevelData. rewrite HJ.
  rewrite (http_Get_scheme net url w (JoinUrl_https _ _ _ HJ)), Hnet.
  cbn [fst]. rewrite Hst. cbn [negb Z.eqb Pos.eqb]. rewrite Hgz, Hjs. reflexivity.
Qed.

Lemma FetchLevelData_json_failure_witness :
  fst (FetchLevelData (net_status 200 (gzip_compress_test [Byte.x7b])) bool false
         gzip_NewReader_test json_Decode_level_test ptlv_source
         (level_with_urls "data.json.gz" "" "") empty_world)
  = (false, Some ErrLoadChartData).
Proof.
  exact (FetchLevelData_json_failure (net_status 200 (gzip_compress_test [Byte.x7b])) bool
           false gzip_NewReader_test json_Decode_level_test ptlv_source
           (level_with_urls "data.json.gz" "" "") empty_world
           "https://ptlv.sevenc7c.com/data.json.gz"
           (mkResponse 200 (gzip_compress_test [Byte.x7b])) [Byte.x7b]
           eq_refl eq_refl eq_refl eq_refl eq_refl).
Defined.

(** When the cover body does not decode as an image, [DownloadCover]
    fails with "Loading jacket failed." and no file is written or
    changed; when neither [destPath] nor one of its ancestors is a
    regular file, the destination directory has already been created. *)
Theorem DownloadCover_decode_failure
  (net : string -> option Response) (image_Decode : list Byte.byte -> option GoImage)
  (ApproxBiLinear : Scaler) (png_Encode : GoImage -> list Byte.byte)
  (source : Source) (level : LevelInfo) (destPath : Path) (w : World)
  (url : string) (r : Response) :
  JoinUrl ("https://" ++ source.(Host)) level.(Cover).(Url) = (url, None) ->
  net url = Some r ->
  r.(StatusCode) = 200%Z ->
  image_Decode r.(Body) = None ->
  fst (DownloadCover net image_Decode ApproxBiLinear png_Encode source level destPath w)
  = Some ErrLoadJacket
  /\ (snd (DownloadCover net image_Decode ApproxBiLinear png_Encode source level destPath w)).(fs_files)
     = w.(fs_files)
  /\ (mkdir_blocked destPath w = false ->
      dir_exists destPath
        (snd (DownloadCover net image_Decode ApproxBiLinear png_Encode source level destPath w))
      = true).
Proof.
  intros HJ Hnet Hst Hdec. unfold DownloadCover. rewrite HJ.
  rewrite (http_Get_scheme net url w (JoinUrl_https _ _ _ HJ)), Hnet, Hst.
  cbn [negb Z.eqb Pos.eqb].
  mkdir_step. rewrite Hdec.
  split; [reflexivity|]. split; [exact Hf|]. intros Hblk. exact (Hdir Hblk).
Qed.

Lemma DownloadCover_decode_failure_witness :
  fst (DownloadCover (net_status 200 [Byte.x00]) image_Decode_none ApproxBiLinear_test
         png_Encode_test ptlv_source (level_with_urls "" "cover.png" "") ["out"] empty_world)
  = Some ErrLoadJacket.
Proof.
  exact (proj1 (DownloadCover_decode_failure (net_status 200 [Byte.x00]) image_Decode_none
                  ApproxBiLinear_test png_Encode_test ptlv_source
                  (level_with_urls "" "cover.png" "") ["out"] empty_world
                  "https://ptlv.sevenc7c.com/cover.png" (mkResponse 200 [Byte.x00])
                  eq_refl eq_refl eq_refl eq_refl)).
Defined.



(** [DownloadCover] writes no file but [{destPath}/cover.png]: every
    other path keeps its content (or absence). *)
Theorem DownloadCover_other_files_untouched
  (net : string -> option Response) (image_Decode : list Byte.byte -> option GoImage)
  (ApproxBiLinear : Scaler) (png_Encode : GoImage -> list Byte.byte)
  (source : Source) (level : LevelInfo) (destPath : Path) (w : World) (p : Path) :
  p <> path_Join destPath "cover.png" ->
  lookup_file p
    (snd (DownloadCover net image_Decode ApproxBiLinear png_Encode source level destPath w))
  = lookup_file p w.
Proof.
  intros Hne. unfold DownloadCover.
  destruct (JoinUrl _ _) as [u [e|]]; [reflexivity|].
  destruct (http_Get net u w) as [resp w1] eqn:EG.
  pose proof (http_Get_lookup net u w w1 resp p EG) as H1.
  destruct resp as [r|]; [|exact H1].
  destruct (negb _); [exact H1|].
  destruct (os_MkdirAll destPath w1) as [w0 e0] eqn:EM.
  destruct (os_MkdirAll_spec _ _ _ _ EM) as (_ & _ & _ & _ & H0).
  rewrite <- H0 in H1. clear H0.
  destruct (image_Decode _) as [img|]; [|exact H1].
  destruct (os_Create _ _) as [w2 e2] eqn:EC.
  pose proof (os_Create_lookup_other _ p _ _ _ EC Hne) as H2.
  destruct e2 as [m|]; [cbn [snd]; rewrite H2; exact H1|].
  destruct (file_Write _ _ _) as [w3 e3] eqn:EW.
  pose proof (file_Write_lookup_other _ p _ _ _ _ EW Hne) as H3.
  destruct e3; cbn [snd]; rewrite H3, H2; exact H1.
Qed.

Lemma DownloadCover_other_files_untouched_witness :
  ["notes.txt"] <> path_Join ["out"] "cover.png"
  /\ lookup_file ["notes.txt"]
       (snd (DownloadCover (net_status 200 [Byte.x00]) image_Decode_test ApproxBiLinear_test
               png_Encode_test ptlv_source (level_with_urls "" "cover.png" "") ["out"]
               (mkWorld [] [(["notes.txt"], [Byte.x41])] 4096 [])))
     = Some [Byte.x41].
Proof.
  split; [discriminate|].
  exact (DownloadCover_other_files_untouched (net_status 200 [Byte.x00]) image_Decode_test
           ApproxBiLinear_test png_Encode_test ptlv_source (level_with_urls "" "cover.png" "")
           ["out"] (mkWorld [] [(["notes.txt"], [Byte.x41])] 4096 []) ["notes.txt"]
           ltac:(discriminate)).
Defined.



(** [DownloadBackground] writes no file but
    [{destPath}/background.png]: every other path keeps its content (or
    absence). *)
Theorem DownloadBackground_other_files_untouched
  (net : string -> option Response) (source : Source) (level : LevelInfo)
  (destPath : Path) (w : World) (p : Path) :
  p <> path_Join destPath "background.png" ->
  lookup_file p (snd (DownloadBackground net source level destPath w)) = lookup_file p w.
Proof.
  intros Hne. unfold DownloadBackground.
  destruct (JoinUrl _ _) as [u e].
  destruct (http_Get net u w) as [resp w1] eqn:EG.
  pose proof (http_Get_lookup net u w w1 resp p EG) as H1.
  destruct resp as [r|]; [|exact H1].
  destruct (negb _); [exact H1|].
  destruct (os_Create _ _) as [w2 e2] eqn:EC.
  pose proof (os_Create_lookup_other _ p _ _ _ EC Hne) as H2.
  destruct e2 as [m|]; [cbn [snd]; rewrite H2; exact H1|].
  unfold io_Copy. destruct (file_Write _ _ _) as [w3 e3] eqn:EW.
  pose proof (file_Write_lookup_other _ p _ _ _ _ EW Hne) as H3.
  cbn [snd]. rewrite H3, H2. exact H1.
Qed.

Lemma DownloadBackground_other_files_untouched_witness :
  ["notes.txt"] <> path_Join [] "background.png"
  /\ lookup_file ["notes.txt"]
       (snd (DownloadBackground (net_status 200 [Byte.x00]) ptlv_source
               (level_with_urls "" "" "bg.png") []
               (mkWorld [] [(["notes.txt"], [Byte.x41])] 4096 [])))
     = Some [Byte.x41].
Proof.
  split; [discriminate|].
  exact (DownloadBackground_other_files_untouched (net_status 200 [Byte.x00]) ptlv_source
           (level_with_urls "" "" "bg.png") []
           (mkWorld [] [(["notes.txt"], [Byte.x41])] 4096 []) ["notes.txt"]
           ltac:(discriminate)).
Defined.

(** [DownloadBackground] never creates or removes a directory. *)
Theorem DownloadBackground_dirs_unchanged
  (net : string -> option Response) (source : Source) (level : LevelInfo)
  (destPath : Path) (w : World) :
  (snd (DownloadBackground net source level destPath w)).(fs_dirs) = w.(fs_dirs).
Proof.
  unfold DownloadBackground.
  destruct (JoinUrl _ _) as [u e].
  destruct (http_Get net u w) as [resp w1] eqn:EG.
  destruct (http_Get_fs net u w) as [H1 _]. rewrite EG in H1. cbn [snd] in H1.
  destruct resp as [r|]; [|exact H1].
  destruct (negb _); [exact H1|].
  destruct (os_Create _ _) as [w2 e2] eqn:EC.
  pose proof (os_Create_dirs _ _ _ _ EC) as H2.
  destruct e2 as [m|]; [cbn [snd]; rewrite H2; exact H1|].
  unfold io_Copy. destruct (file_Write _ _ _) as [w3 e3] eqn:EW.
  pose proof (file_Write_dirs_eq _ _ _ _ _ EW) as H3.
  cbn [snd]. rewrite H3, H2. exact H1.
Qed.


Lemma FetchLevelData_bad_url_witness :
  snd (JoinUrl ("https://" ++ ptlv_source.(Host)) "%zz") = Some "invalid URL"
  /\ FetchLevelData (net_status 200 []) bool false gzip_NewReader_test json_Decode_level_test
       ptlv_source (level_with_urls "%zz" "" "") empty_world
     = ((false, Some ErrUrlParse), empty_world).
Proof.
  split; [reflexivity|].
  exact (FetchLevelData_bad_url (net_status 200 []) bool false gzip_NewReader_test
           json_Decode_level_test ptlv_source (level_with_urls "%zz" "" "") empty_world
           "invalid URL" eq_refl).
Defined.

Lemma DownloadCover_bad_url_witness :
  snd (JoinUrl ("https://" ++ ptlv_source.(Host)) "%zz") = Some "invalid URL"
  /\ DownloadCover (net_status 200 []) image_Decode_test ApproxBiLinear_test png_Encode_test
       ptlv_source (level_with_urls "" "%zz" "") ["out"] empty_world
     = (Some ErrUrlParse, empty_world).
Proof.
  split; [reflexivity|].
  exact (DownloadCover_bad_url (net_status 200 []) image_Decode_test ApproxBiLinear_test
           png_Encode_test ptlv_source (level_with_urls "" "%zz" "") ["out"] empty_world
           "invalid URL" eq_refl).
Defined.

Lemma DownloadCover_http_failure_keeps_files_witness :
  (snd (DownloadCover (net_status 404 []) image_Decode_test ApproxBiLinear_test
          png_Encode_test ptlv_source (level_with_urls "" "cover.png" "") ["out"]
          empty_world)).(fs_files) = [].
Proof.
  exact (proj1 (DownloadCover_http_failure_keeps_files (net_status 404 []) image_Decode_test
                  ApproxBiLinear_test png_Encode_test ptlv_source
                  (level_with_urls "" "cover.png" "") ["out"] empty_world
                  ltac:(intros r H; injection H as <-; discriminate))).
Defined.

Lemma DownloadBackground_http_failure_keeps_files_witness :
  (snd (DownloadBackground (net_status 404 []) ptlv_source (level_with_urls "" "" "bg.png")
          [] empty_world)).(fs_files) = [].
Proof.
  exact (proj1 (DownloadBackground_http_failure_keeps_files (net_status 404 []) ptlv_source
                  (level_with_urls "" "" "bg.png") [] empty_world
                  ltac:(intros r H; injection H as <-; discriminate))).
Defined.

Lemma DownloadCover_creates_destPath_witness :
  dir_exists ["out"; "jackets"] empty_world = false
  /\ dir_exists ["out"; "jackets"]
       (snd (DownloadCover (net_status 200 []) image_Decode_none ApproxBiLinear_test
               png_Encode_test ptlv_source (level_with_urls "" "cover.png" "")
               ["out"; "jackets"] empty_world)) = true.
Proof.
  split; [reflexivity|].
  exact (DownloadCover_creates_destPath (net_status 200 []) image_Decode_none
           ApproxBiLinear_test png_Encode_test ptlv_source (level_with_urls "" "cover.png" "")
           ["out"; "jackets"] empty_world "https://ptlv.sevenc7c.com/cover.png"
           (mkResponse 200 []) eq_refl eq_refl eq_refl eq_refl).
Defined.

(** ** Failures before any request or directory *)


